(** * runTest.ts: launching VS Code for extension tests

    A shallow embedding of [src/lib/runTest.ts] and the properties of its
    launch-argument construction, environment merge, output filter and
    result reporting.

    Conventions of the embedding.
    - An optional property [p?: T] is an [option T]; [None] is [undefined].
    - A JavaScript object used as a string-keyed dictionary is a
      [gmap string V].  The values of [testRunnerEnv] have the type
      [string | undefined], hence [gmap string (option string)]: a key can
      be present and hold [undefined].
    - The observable effects of one invocation (console lines, calls to the
      download collaborator, calls to [cp.spawn], calls to the promise's
      [resolve] and [reject]) are recorded in explicit state.
    - The call of [cp.spawn] is an oracle with two outcomes: it throws, or
      it returns a child object, given as the finite list of events that the
      child has emitted so far.  Asynchronous failures of the child arrive
      as ['error'] events. *)

From stdpp Require Import base option list strings pretty gmap fin_maps.
From Stdlib Require Import ZArith.

Open Scope string_scope.
Open Scope list_scope.
Open Scope Z_scope.

(** ** JavaScript primitives used by the file *)

Module JS.

(** The line feed, written [\n] in the source. *)
Definition LF : string := String (Ascii.ascii_of_nat 10) EmptyString.

(** Truthiness of a value of type [string | undefined]: [undefined] and
    the empty string are falsy, every other string is truthy. *)
Definition truthy (x : option string) : bool :=
  match x with
  | None => false
  | Some EmptyString => false
  | Some (String _ _) => true
  end.

(** [x || d] on [string | undefined]. *)
Definition or_else (x : option string) (d : string) : string :=
  match x with
  | Some s => if truthy x then s else d
  | None => d
  end.

(** [String.prototype.includes]: [needle] occurs in [s] at some index. *)
Fixpoint includes (needle s : string) : bool :=
  String.prefix needle s ||
  match s with
  | EmptyString => false
  | String _ s' => includes needle s'
  end.

(** A dictionary object whose properties hold [string | undefined]. *)
Abbreviation Dict := (gmap string (option string)).

(** The assignment [target[key] = value] on an ordinary object that
    inherits from [Object.prototype], for a value that is a string or
    [undefined].  The key [__proto__] reaches the accessor of
    [Object.prototype], whose setter ignores a value that is neither an
    object nor [null]: no own property is created.  Every other key
    becomes (or stays) an own property holding [value]. *)
Definition set_property (key : string) (value : option string) (target : Dict) : Dict :=
  if decide (key = "__proto__") then target else <[key := value]> target.

(** [Object.assign(target, source)]: every own property of [source] is
    set on [target], in turn; an [undefined] source is skipped.  A
    property whose value is [undefined] is an own property like any
    other and is set. *)
Definition Object_assign (target : Dict) (source : option Dict) : Dict :=
  match source with
  | None => target
  | Some src => map_fold set_property target src
  end.

(** The state of a promise. *)
Inductive PromiseState (V E : Type) : Type :=
| Pending
| Fulfilled (value : V)
| Rejected (reason : E).
Arguments Pending {V E}.
Arguments Fulfilled {V E} value.
Arguments Rejected {V E} reason.

Definition is_pending {V E} (p : PromiseState V E) : bool :=
  match p with Pending => true | _ => false end.

Definition is_settled {V E} (p : PromiseState V E) : bool :=
  negb (is_pending p).

End JS.

Import JS.

(** ** The options objects (lines 9-125) *)

Module TestOptions.
Record t : Type := mk {
  vscodeExecutablePath : option string;
  version : option string;
  extensionPath : string;
  testRunnerPath : string;
  testRunnerEnv : option Dict;
  testWorkspace : option string;
  additionalLaunchArgs : option (list string);
  locale : option string
}.

Definition set_vscodeExecutablePath (p : string) (o : t) : t :=
  {| vscodeExecutablePath := Some p;
     version := version o;
     extensionPath := extensionPath o;
     testRunnerPath := testRunnerPath o;
     testRunnerEnv := testRunnerEnv o;
     testWorkspace := testWorkspace o;
     additionalLaunchArgs := additionalLaunchArgs o;
     locale := locale o |}.
End TestOptions.

Module ExplicitTestOptions.
Record t : Type := mk {
  vscodeExecutablePath : option string;
  version : option string;
  launchArgs : list string;
  testRunnerEnv : option Dict
}.

Definition set_vscodeExecutablePath (p : string) (o : t) : t :=
  {| vscodeExecutablePath := Some p;
     version := version o;
     launchArgs := launchArgs o;
     testRunnerEnv := testRunnerEnv o |}.
End ExplicitTestOptions.

(** [TestOptions | ExplicitTestOptions]; the source tells the two apart
    with ['launchArgs' in options]. *)
Inductive Options : Type :=
| Implicit (o : TestOptions.t)
| Explicit (o : ExplicitTestOptions.t).

Definition vscodeExecutablePath (options : Options) : option string :=
  match options with
  | Implicit o => TestOptions.vscodeExecutablePath o
  | Explicit o => ExplicitTestOptions.vscodeExecutablePath o
  end.

Definition version (options : Options) : option string :=
  match options with
  | Implicit o => TestOptions.version o
  | Explicit o => ExplicitTestOptions.version o
  end.

Definition testRunnerEnv (options : Options) : option Dict :=
  match options with
  | Implicit o => TestOptions.testRunnerEnv o
  | Explicit o => ExplicitTestOptions.testRunnerEnv o
  end.

(** The assignment [options.vscodeExecutablePath = p]. *)
Definition set_vscodeExecutablePath (p : string) (options : Options) : Options :=
  match options with
  | Implicit o => Implicit (TestOptions.set_vscodeExecutablePath p o)
  | Explicit o => Explicit (ExplicitTestOptions.set_vscodeExecutablePath p o)
  end.

(** ** Launch arguments (lines 136-147) *)

Definition unshift (x : string) (args : list string) : list string := x :: args.

Definition launchArguments (options : TestOptions.t) : list string :=
  let args :=
    [ "--extensionDevelopmentPath=" +:+ TestOptions.extensionPath options;
      "--extensionTestsPath=" +:+ TestOptions.testRunnerPath options;
      "--locale=" +:+ or_else (TestOptions.locale options) "en" ] in
  let args :=
    if truthy (TestOptions.testWorkspace options)
    then match TestOptions.testWorkspace options with
         | Some w => unshift w args
         | None => args
         end
    else args in
  match TestOptions.additionalLaunchArgs options with
  | Some more => args ++ more
  | None => args
  end.

(** ** Supervising the child process (lines 151-191) *)

(** The exit code carried by the ['close'] event: [number | null]. *)
Abbreviation ExitCode := (option Z).

(** The events of the child process that the source listens to. *)
Inductive ChildEvent : Type :=
| StdoutData (data : string)      (* cmd.stdout 'data', with data.toString() *)
| StderrData (data : string)      (* cmd.stderr 'data', with data.toString() *)
| ErrorEvent (data : string)      (* cmd 'error', with data.toString() *)
| CloseEvent (code : ExitCode).   (* cmd 'close' *)

Definition is_close (ev : ChildEvent) : bool :=
  match ev with CloseEvent _ => true | _ => false end.

(** A call of one of the two functions handed to the promise executor. *)
Inductive SettleCall : Type :=
| CallResolve (value : ExitCode)
| CallReject (reason : string).

(** The state that the handlers of one [innerRunTests] call act upon:
    the lines written with [console.log], the state of the promise under
    construction, and the calls made to [resolve] and [reject], each with
    whether it settled the promise. *)
Record Supervision : Type := mkSupervision {
  console : list string;
  promise : PromiseState ExitCode string;
  settle_log : list (SettleCall * bool)
}.

Definition console_log (s : string) (st : Supervision) : Supervision :=
  {| console := console st ++ [s];
     promise := promise st;
     settle_log := settle_log st |}.

(** [resolve] and [reject] settle the promise when it is pending and do
    nothing otherwise. *)
Definition resolve (value : ExitCode) (st : Supervision) : Supervision :=
  {| console := console st;
     promise := if is_pending (promise st) then Fulfilled value else promise st;
     settle_log := settle_log st ++ [(CallResolve value, is_pending (promise st))] |}.

Definition reject (reason : string) (st : Supervision) : Supervision :=
  {| console := console st;
     promise := if is_pending (promise st) then Rejected reason else promise st;
     settle_log := settle_log st ++ [(CallReject reason, is_pending (promise st))] |}.

(** [`${code}`] *)
Definition code_to_string (code : ExitCode) : string :=
  match code with
  | Some n => pretty n
  | None => "null"
  end.

(** [code !== 0] *)
Definition strict_ne_zero (code : ExitCode) : bool :=
  match code with
  | Some n => negb (n =? 0)
  | None => true
  end.

(** Lines 162-167. *)
Definition stdout_on_data (s : string) (st : Supervision) : Supervision :=
  if negb (includes "update#setState idle" s) then console_log s st else st.

(** Lines 169-174. *)
Definition stderr_on_data (s : string) (st : Supervision) : Supervision :=
  if negb (includes "stty: stdin" s) then console_log ("Spawn Error: " +:+ s) st else st.

(** Lines 176-178. *)
Definition cmd_on_error (data : string) (st : Supervision) : Supervision :=
  console_log ("Test error: " +:+ data) st.

(** Lines 180-189. *)
Definition cmd_on_close (code : ExitCode) (st : Supervision) : Supervision :=
  let st := console_log ("Exit code:   " +:+ code_to_string code) st in
  let st := if strict_ne_zero code then reject "Failed" st else st in
  let st := console_log ("Done" +:+ LF) st in
  resolve code st.

Definition dispatch (st : Supervision) (ev : ChildEvent) : Supervision :=
  match ev with
  | StdoutData s => stdout_on_data s st
  | StderrData s => stderr_on_data s st
  | ErrorEvent data => cmd_on_error data st
  | CloseEvent code => cmd_on_close code st
  end.

(** A call [cp.spawn(command, argv, { env })]. *)
Record SpawnCall : Type := mkSpawnCall {
  command : string;
  argv : list string;
  env : Dict
}.

(** Line 159; [process_env] is [process.env], whose values are strings. *)
Definition fullEnv (process_env : gmap string string) (testRunnerEnv : option Dict) : Dict :=
  Object_assign (Object_assign ∅ (Some (Some <$> process_env))) testRunnerEnv.

Definition initial : Supervision :=
  {| console := []; promise := Pending; settle_log := [] |}.

(** What the call of [cp.spawn] at line 160 does: it throws (an empty
    command, a NUL character in the command or in an argument, ...), or it
    returns a child, which emits [events]. *)
Inductive Spawned : Type :=
| SpawnThrew (err : string)
| Child (events : list ChildEvent).

(** The promise executor from line 160 on.  When [cp.spawn] returns, the
    four handlers are registered and the events are delivered in order.
    When it throws, no handler is registered, and the exception leaves the
    executor: the promise constructor rejects the promise with it; the
    source has called neither [resolve] nor [reject]. *)
Definition supervise (spawned : Spawned) : Supervision :=
  match spawned with
  | Child events => foldl dispatch initial events
  | SpawnThrew err => {| console := []; promise := Rejected err; settle_log := [] |}
  end.

(** [innerRunTests]: the executor merges the environment, calls
    [cp.spawn] and goes on as [supervise] says. *)
Definition innerRunTests (process_env : gmap string string) (spawned : Spawned)
    (executable : string) (args : list string) (testRunnerEnv : option Dict)
    : SpawnCall * Supervision :=
  let cmd := {| command := executable; argv := args; env := fullEnv process_env testRunnerEnv |} in
  (cmd, supervise spawned).

(** ** [runTests] (lines 127-149) *)

(** The outcome of awaiting the download collaborator. *)
Inductive Awaited : Type :=
| Returned (path : string)
| Thrown (err : string).

(** What one invocation of [runTests] leaves behind. *)
Record Invocation : Type := mkInvocation {
  options_after : Options;                  (* the caller's options object *)
  download_calls : list (option string);    (* arguments of downloadAndUnzipVSCode *)
  spawn_calls : list SpawnCall;             (* calls of cp.spawn *)
  supervision : Supervision;                (* console and inner promise *)
  result : PromiseState ExitCode string     (* the promise runTests returned *)
}.

(** After line 130 the property is a string. *)
Definition narrowed (x : option string) : string := default EmptyString x.

Section RunTests.

(** [./download]: the collaborator, as the outcome of awaiting it. *)
Variable downloadAndUnzipVSCode : option string → Awaited.
(** [process.env] *)
Variable process_env : gmap string string.
(** The outcome of the call of [cp.spawn], should it be made. *)
Variable spawned : Spawned.

(** Lines 132-148, with [options] as it is after line 130. *)
Definition launch (downloads : list (option string)) (options : Options) : Invocation :=
  let '(cmd, st) :=
    match options with
    | Explicit o =>
        innerRunTests process_env spawned
          (narrowed (vscodeExecutablePath options))
          (ExplicitTestOptions.launchArgs o)
          (testRunnerEnv options)
    | Implicit o =>
        innerRunTests process_env spawned
          (narrowed (vscodeExecutablePath options))
          (launchArguments o)
          (testRunnerEnv options)
    end in
  {| options_after := options;
     download_calls := downloads;
     spawn_calls := [cmd];
     supervision := st;
     result := promise st |}.

Definition runTests (options : Options) : Invocation :=
  if negb (truthy (vscodeExecutablePath options)) then
    match downloadAndUnzipVSCode (version options) with
    | Returned path =>
        launch [version options] (set_vscodeExecutablePath path options)
    | Thrown err =>
        {| options_after := options;
           download_calls := [version options];
           spawn_calls := [];
           supervision := initial;
           result := Rejected err |}
    end
  else launch [] options.

End RunTests.

(** ** Vocabulary of the statements *)

(** An executable is at hand after lines 128-130: the caller's path is
    truthy, or the download collaborator returns one. *)
Definition acquires (downloadAndUnzipVSCode : option string → Awaited)
    (options : Options) : bool :=
  truthy (vscodeExecutablePath options) ||
  match downloadAndUnzipVSCode (version options) with
  | Returned _ => true
  | Thrown _ => false
  end.

(** Two options objects agree on every property except, possibly,
    [vscodeExecutablePath]. *)
Definition agree_but_executable (a b : Options) : Prop :=
  match a, b with
  | Implicit x, Implicit y =>
      TestOptions.version x = TestOptions.version y ∧
      TestOptions.extensionPath x = TestOptions.extensionPath y ∧
      TestOptions.testRunnerPath x = TestOptions.testRunnerPath y ∧
      TestOptions.testRunnerEnv x = TestOptions.testRunnerEnv y ∧
      TestOptions.testWorkspace x = TestOptions.testWorkspace y ∧
      TestOptions.additionalLaunchArgs x = TestOptions.additionalLaunchArgs y ∧
      TestOptions.locale x = TestOptions.locale y
  | Explicit x, Explicit y =>
      ExplicitTestOptions.version x = ExplicitTestOptions.version y ∧
      ExplicitTestOptions.launchArgs x = ExplicitTestOptions.launchArgs y ∧
      ExplicitTestOptions.testRunnerEnv x = ExplicitTestOptions.testRunnerEnv y
  | _, _ => False
  end.

(** The idle heartbeat of the update service, and the chunk made of that
    line alone. *)
Definition idle_marker : string := "update#setState idle".
Definition idle_line : string := idle_marker +:+ LF.

(** ** Sample inputs *)

(** An implicit request without an executable path. *)
Definition sample_options : TestOptions.t :=
  {| TestOptions.vscodeExecutablePath := None;
     TestOptions.version := Some "1.32.0";
     TestOptions.extensionPath := "/ext";
     TestOptions.testRunnerPath := "/ext/out/test";
     TestOptions.testRunnerEnv := Some {[ "FOO" := Some "bar" ]};
     TestOptions.testWorkspace := Some "/ext/fixture";
     TestOptions.additionalLaunchArgs := Some ["--disable-extensions"];
     TestOptions.locale := None |}.

(** An explicit request whose executable path is the empty string. *)
Definition sample_explicit : ExplicitTestOptions.t :=
  {| ExplicitTestOptions.vscodeExecutablePath := Some EmptyString;
     ExplicitTestOptions.version := Some "insiders";
     ExplicitTestOptions.launchArgs := ["/ws"; "--extensionDevelopmentPath=/ext"];
     ExplicitTestOptions.testRunnerEnv := None |}.

(** A download collaborator that succeeds. *)
Definition sample_download (version : option string) : Awaited :=
  Returned ("/cache/vscode-" +:+ default "stable" version +:+ "/code").

Definition sample_env : gmap string string :=
  {[ "PATH" := "/usr/bin"; "HOME" := "/root" ]}.

(** ** Proof automation *)

(** Case analysis along lines 128-130. *)
Ltac resolve_executable download options :=
  unfold runTests, acquires in *;
  destruct (truthy (vscodeExecutablePath options)) eqn:Htruthy;
  [| destruct (download (version options)) as [path|err] eqn:Hdownload ];
  simpl in *.

(** * Properties *)

(** ** Strings *)

Lemma prefix_spec (p s : string) :
  String.prefix p s = true ↔ ∃ b, s = p +:+ b.
Proof.
  revert s. induction p as [|c p IH]; intros [|d s]; simpl.
  - split; [intros _; by exists EmptyString | done].
  - split; [intros _; by exists (String d s) | done].
  - split; [done | intros [b Hb]; discriminate].
  - destruct (Ascii.ascii_dec c d) as [->|Hne].
    + rewrite IH. split; intros [b Hb]; exists b; [by rewrite Hb | by injection Hb].
    + split; [done | intros [b Hb]; injection Hb; congruence].
Qed.

Lemma includes_nil (needle : string) :
  includes needle EmptyString = String.prefix needle EmptyString || false.
Proof. reflexivity. Qed.

Lemma includes_cons (needle : string) (c : Ascii.ascii) (s : string) :
  includes needle (String c s) = String.prefix needle (String c s) || includes needle s.
Proof. reflexivity. Qed.

(** [includes needle s] holds exactly when [s] is [a + needle + b]. *)
Lemma includes_spec (needle s : string) :
  includes needle s = true ↔ ∃ a b, s = a +:+ needle +:+ b.
Proof.
  induction s as [|c s IH].
  - rewrite includes_nil, orb_false_r, prefix_spec. split.
    + intros [b Hb]. by exists EmptyString, b.
    + intros [a [b Hab]]. destruct a; [by exists b | discriminate].
  - rewrite includes_cons, orb_true_iff, prefix_spec, IH. split.
    + intros [[b Hb] | [a [b Hab]]].
      * by exists EmptyString, b.
      * exists (String c a), b. simpl. by rewrite Hab.
    + intros [a [b Hab]]. destruct a as [|d a].
      * left. by exists b.
      * right. exists a, b. simpl in Hab. by injection Hab.
Qed.

(** ** Dictionaries *)

Lemma Object_assign_lookup (target src : Dict) (key : string) :
  Object_assign target (Some src) !! key =
  if decide (key = "__proto__") then target !! key
  else match src !! key with
       | Some value => Some value
       | None => target !! key
       end.
Proof.
  unfold Object_assign.
  apply (map_fold_weak_ind
    (λ (acc : Dict) (m : Dict),
       acc !! key =
       if decide (key = "__proto__") then target !! key
       else match m !! key with Some v => Some v | None => target !! key end)).
  - rewrite lookup_empty. by case_decide.
  - intros i x m acc Hi IH. unfold set_property.
    destruct (decide (i = "__proto__")) as [->|Hproto].
    + rewrite IH. case_decide; [done|]. by rewrite lookup_insert_ne.
    + destruct (decide (i = key)) as [->|Hne].
      * rewrite !lookup_insert_eq. by case_decide.
      * by rewrite !lookup_insert_ne.
Qed.

Lemma fullEnv_lookup (process_env : gmap string string) (tre : option Dict) (key : string) :
  fullEnv process_env tre !! key =
  if decide (key = "__proto__") then None
  else match tre ≫= (λ d, d !! key) with
       | Some value => Some value
       | None => Some <$> process_env !! key
       end.
Proof.
  unfold fullEnv. destruct tre as [d|].
  - rewrite !Object_assign_lookup, lookup_fmap, lookup_empty. simpl.
    case_decide; [done|].
    destruct (d !! key); [done|]. by destruct (process_env !! key).
  - change (Object_assign ?t None) with t.
    rewrite Object_assign_lookup, lookup_fmap, lookup_empty. simpl.
    case_decide; [done|].
    by destruct (process_env !! key).
Qed.

(** ** The promise under the handlers *)

(** No handler other than the one of ['close'] touches the promise. *)
Lemma dispatch_quiet (st : Supervision) (ev : ChildEvent) :
  is_close ev = false →
  promise (dispatch st ev) = promise st ∧ settle_log (dispatch st ev) = settle_log st.
Proof.
  destruct ev as [s|s|d|code]; simpl; try done; intros _.
  - unfold stdout_on_data. by destruct (negb _).
  - unfold stderr_on_data. by destruct (negb _).
Qed.

Lemma quiet_events (evs : list ChildEvent) (st : Supervision) :
  existsb is_close evs = false →
  promise (foldl dispatch st evs) = promise st ∧
  settle_log (foldl dispatch st evs) = settle_log st.
Proof.
  revert st. induction evs as [|ev evs IH]; intros st; simpl; [done|].
  rewrite orb_false_iff. intros [Hev Hevs].
  destruct (dispatch_quiet st ev Hev) as [Hp Hl].
  destruct (IH (dispatch st ev) Hevs) as [Hp' Hl'].
  split; congruence.
Qed.

(** A settled promise keeps its state under every event. *)
Lemma dispatch_settled (st : Supervision) (ev : ChildEvent) :
  is_pending (promise st) = false → promise (dispatch st ev) = promise st.
Proof.
  intros Hs. destruct ev as [s|s|d|code]; simpl.
  - unfold stdout_on_data. by destruct (negb _).
  - unfold stderr_on_data. by destruct (negb _).
  - done.
  - unfold cmd_on_close. destruct (strict_ne_zero code); simpl; by rewrite ?Hs.
Qed.

Lemma settled_events (evs : list ChildEvent) (st : Supervision) :
  is_pending (promise st) = false → promise (foldl dispatch st evs) = promise st.
Proof.
  revert st. induction evs as [|ev evs IH]; intros st Hs; simpl; [done|].
  rewrite IH; rewrite dispatch_settled; done.
Qed.

(** The ['close'] handler on a pending promise. *)
Lemma close_zero (st : Supervision) :
  promise st = Pending →
  promise (cmd_on_close (Some 0) st) = Fulfilled (Some 0) ∧
  settle_log (cmd_on_close (Some 0) st) = settle_log st ++ [(CallResolve (Some 0), true)].
Proof. intros Hp. unfold cmd_on_close. simpl. by rewrite Hp. Qed.

Lemma strict_ne_zero_spec (code : ExitCode) :
  strict_ne_zero code = true ↔ code ≠ Some 0.
Proof.
  destruct code as [n|]; simpl; [|done].
  rewrite negb_true_iff, Z.eqb_neq. split; congruence.
Qed.

Lemma close_nonzero (code : ExitCode) (st : Supervision) :
  code ≠ Some 0 →
  promise st = Pending →
  promise (cmd_on_close code st) = Rejected "Failed" ∧
  settle_log (cmd_on_close code st) =
    settle_log st ++ [(CallReject "Failed", true); (CallResolve code, false)].
Proof.
  intros Hc%strict_ne_zero_spec Hp. unfold cmd_on_close. rewrite Hc. simpl.
  rewrite Hp. simpl. by rewrite <- app_assoc.
Qed.

(** The state after a trace that holds a first ['close'] event. *)
Lemma first_close (pre post : list ChildEvent) (code : ExitCode) :
  existsb is_close pre = false →
  promise (foldl dispatch initial (pre ++ CloseEvent code :: post)) =
  if strict_ne_zero code then Rejected "Failed" else Fulfilled code.
Proof.
  intros Hpre. rewrite foldl_app. simpl.
  destruct (quiet_events pre initial Hpre) as [Hp _]. simpl in Hp.
  destruct (strict_ne_zero code) eqn:Hc.
  - apply strict_ne_zero_spec in Hc.
    destruct (close_nonzero code _ Hc Hp) as [Hq _].
    rewrite settled_events; by rewrite Hq.
  - assert (code = Some 0) as ->.
    { destruct code as [n|]; [|done]. simpl in Hc.
      apply negb_false_iff, Z.eqb_eq in Hc. by subst. }
    destruct (close_zero _ Hp) as [Hq _].
    rewrite settled_events; by rewrite Hq.
Qed.

(** The promise is pending exactly as long as no ['close'] event came. *)
Lemma pending_iff_no_close (evs : list ChildEvent) :
  promise (foldl dispatch initial evs) = Pending ↔ existsb is_close evs = false.
Proof.
  split.
  - intros Hp. destruct (existsb is_close evs) eqn:Hex; [|done].
    apply existsb_exists in Hex as [ev [Hin Hev]].
    destruct ev as [| | |code]; try discriminate.
    apply list_elem_of_In, list_elem_of_split in Hin as [l1 [l2 ->]].
    exfalso. clear Hev. revert Hp.
    (* cut at the first close of l1, or at this one *)
    assert (∃ pre c post, l1 ++ CloseEvent code :: l2 = pre ++ CloseEvent c :: post
                          ∧ existsb is_close pre = false) as (pre & c & post & -> & Hpre).
    { clear. induction l1 as [|e l1 IH]; simpl.
      - by exists [], code, l2.
      - destruct IH as (pre & c & post & Heq & Hpre).
        destruct (is_close e) eqn:He.
        + destruct e as [| | |c']; try discriminate.
          by exists [], c', (l1 ++ CloseEvent code :: l2).
        + exists (e :: pre), c, post. simpl. rewrite Heq, He, Hpre. done. }
    rewrite (first_close _ _ _ Hpre). by destruct (strict_ne_zero c).
  - intros Hq. by destruct (quiet_events evs initial Hq) as [-> _].
Qed.

(** ** What [runTests] does once an executable is at hand *)

Lemma launch_supervision process_env spawned downloads options :
  supervision (launch process_env spawned downloads options) = supervise spawned.
Proof. by destruct options. Qed.

Lemma launch_result process_env spawned downloads options :
  result (launch process_env spawned downloads options) = promise (supervise spawned).
Proof. by destruct options. Qed.

Lemma launch_spawn process_env spawned downloads options :
  spawn_calls (launch process_env spawned downloads options) =
  [ {| command := narrowed (vscodeExecutablePath options);
       argv := match options with
               | Explicit o => ExplicitTestOptions.launchArgs o
               | Implicit o => launchArguments o
               end;
       env := fullEnv process_env (testRunnerEnv options) |} ].
Proof. by destruct options. Qed.

Lemma launch_options process_env spawned downloads options :
  options_after (launch process_env spawned downloads options) = options ∧
  download_calls (launch process_env spawned downloads options) = downloads.
Proof. by destruct options. Qed.

Lemma agree_but_executable_refl options : agree_but_executable options options.
Proof. destruct options; simpl; tauto. Qed.

Lemma agree_but_executable_set path options :
  agree_but_executable options (set_vscodeExecutablePath path options).
Proof. destruct options; simpl; tauto. Qed.

Lemma runTests_supervise download process_env spawned options :
  acquires download options = true →
  supervision (runTests download process_env spawned options) = supervise spawned ∧
  result (runTests download process_env spawned options) = promise (supervise spawned).
Proof.
  intros Hacq. resolve_executable download options; try discriminate;
    by rewrite launch_supervision, launch_result.
Qed.

(** The same, for a call of [cp.spawn] that returned a child. *)
Lemma runTests_supervision download process_env events options :
  acquires download options = true →
  supervision (runTests download process_env (Child events) options)
    = foldl dispatch initial events ∧
  result (runTests download process_env (Child events) options)
    = promise (foldl dispatch initial events).
Proof. apply runTests_supervise. Qed.

(** The one call of [cp.spawn], for both shapes of options. *)
Lemma runTests_spawn download process_env spawned options :
  acquires download options = true →
  spawn_calls (runTests download process_env spawned options) =
  [ {| command := if truthy (vscodeExecutablePath options)
                  then narrowed (vscodeExecutablePath options)
                  else match download (version options) with
                       | Returned path => path
                       | Thrown _ => EmptyString
                       end;
       argv := match options with
               | Explicit o => ExplicitTestOptions.launchArgs o
               | Implicit o => launchArguments o
               end;
       env := fullEnv process_env (testRunnerEnv options) |} ].
Proof.
  intros Hacq. resolve_executable download options; try discriminate;
    rewrite launch_spawn; by destruct options.
Qed.

Lemma launchArguments_set path (o : TestOptions.t) :
  launchArguments (TestOptions.set_vscodeExecutablePath path o) = launchArguments o.
Proof. reflexivity. Qed.

(** Every call of [cp.spawn] that [runTests] makes carries the argument
    list of the request's shape and the merged environment. *)
Lemma runTests_spawn_all download process_env spawned options :
  Forall (λ call,
            argv call = match options with
                        | Explicit o => ExplicitTestOptions.launchArgs o
                        | Implicit o => launchArguments o
                        end ∧
            env call = fullEnv process_env (testRunnerEnv options))
         (spawn_calls (runTests download process_env spawned options)).
Proof.
  resolve_executable download options.
  - rewrite launch_spawn. by repeat constructor.
  - rewrite launch_spawn. repeat constructor; by destruct options.
  - constructor.
Qed.

(** What [runTests] leaves in the caller's options object. *)
Lemma runTests_options_after download process_env spawned options :
  options_after (runTests download process_env spawned options) =
  if truthy (vscodeExecutablePath options) then options
  else match download (version options) with
       | Returned path => set_vscodeExecutablePath path options
       | Thrown _ => options
       end.
Proof.
  unfold runTests. destruct (truthy (vscodeExecutablePath options)); simpl;
    [| destruct (download (version options))]; by rewrite ?(proj1 (launch_options _ _ _ _)).
Qed.

Lemma runTests_options_agree download process_env spawned options :
  agree_but_executable options
    (options_after (runTests download process_env spawned options)).
Proof.
  rewrite runTests_options_after.
  destruct (truthy (vscodeExecutablePath options));
    [| destruct (download (version options))];
    auto using agree_but_executable_refl, agree_but_executable_set.
Qed.

(** ** Sample runs *)

Example sample_launchArguments :
  launchArguments sample_options =
  [ "/ext/fixture"; "--extensionDevelopmentPath=/ext";
    "--extensionTestsPath=/ext/out/test"; "--locale=en"; "--disable-extensions" ].
Proof. reflexivity. Qed.

Example sample_empty_workspace_and_locale :
  launchArguments
    {| TestOptions.vscodeExecutablePath := Some "/opt/code";
       TestOptions.version := None;
       TestOptions.extensionPath := "/ext";
       TestOptions.testRunnerPath := "/ext/out/test";
       TestOptions.testRunnerEnv := None;
       TestOptions.testWorkspace := Some EmptyString;
       TestOptions.additionalLaunchArgs := None;
       TestOptions.locale := Some EmptyString |} =
  [ "--extensionDevelopmentPath=/ext"; "--extensionTestsPath=/ext/out/test"; "--locale=en" ].
Proof. reflexivity. Qed.

Example sample_failing_run :
  let run := runTests sample_download sample_env
               (Child [ StdoutData "1 failing"; StdoutData ("update#setState idle" +:+ LF);
                 StderrData "stty: stdin isn't a terminal"; CloseEvent (Some 1) ])
               (Implicit sample_options) in
  console (supervision run) = [ "1 failing"; "Exit code:   1"; "Done" +:+ LF ] ∧
  download_calls run = [ Some "1.32.0" ] ∧
  command <$> spawn_calls run = [ "/cache/vscode-1.32.0/code" ] ∧
  result run = Rejected "Failed".
Proof. by vm_compute. Qed.

Example sample_download_failure :
  let run := runTests (λ _, Thrown "ENOTFOUND") sample_env (Child [CloseEvent (Some 0)])
               (Implicit sample_options) in
  spawn_calls run = [] ∧ result run = Rejected "ENOTFOUND".
Proof. by vm_compute. Qed.

Example sample_spawn_throw :
  let run := runTests sample_download sample_env
               (SpawnThrew "TypeError [ERR_INVALID_ARG_VALUE]")
               (Explicit sample_explicit) in
  length (spawn_calls run) = 1%nat ∧
  console (supervision run) = [] ∧
  result run = Rejected "TypeError [ERR_INVALID_ARG_VALUE]".
Proof. by vm_compute. Qed.

Example sample_proto_key :
  map_to_list (fullEnv {[ "__proto__" := "a"; "HOME" := "/root" ]}
                 (Some {[ "__proto__" := Some "b"; "LANG" := Some "C" ]})) =
  [ ("LANG", Some "C"); ("HOME", Some "/root") ].
Proof. by vm_compute. Qed.

Example sample_merged_environment :
  map_to_list (fullEnv sample_env (Some {[ "HOME" := Some "/tmp/home"; "PATH" := None ]})) =
  [ ("HOME", Some "/tmp/home"); ("PATH", None) ].
Proof. by vm_compute. Qed.

(** * The claims *)

(** ** Result reporting *)

(** C1. When the first ['close'] event of the supervised child carries the
    exit code 0, the promise returned by [runTests] is fulfilled with 0,
    whatever events came before or come after. *)
Theorem runTests_exit_zero_resolves download process_env options pre post :
  acquires download options = true →
  existsb is_close pre = false →
  result (runTests download process_env (Child (pre ++ CloseEvent (Some 0) :: post)) options)
  = Fulfilled (Some 0).
Proof.
  intros Hacq Hpre.
  destruct (runTests_supervision download process_env
              (pre ++ CloseEvent (Some 0) :: post) options Hacq) as [_ ->].
  by rewrite first_close.
Qed.

Lemma runTests_exit_zero_resolves_witness :
  acquires sample_download (Implicit sample_options) = true ∧
  existsb is_close [StdoutData "1 passing"; ErrorEvent "Error: EPIPE"] = false ∧
  result (runTests sample_download sample_env
            (Child ([StdoutData "1 passing"; ErrorEvent "Error: EPIPE"] ++ CloseEvent (Some 0) :: []))
            (Implicit sample_options))
  = Fulfilled (Some 0).
Proof.
  split; [reflexivity|]. split; [reflexivity|].
  apply runTests_exit_zero_resolves; reflexivity.
Defined.

(** C2. When the first ['close'] event carries anything but 0 (a non-zero
    number, or [null] after a signal), the promise returned by [runTests]
    is rejected, with the reason ['Failed']. *)
Theorem runTests_exit_nonzero_rejects download process_env options pre code post :
  acquires download options = true →
  existsb is_close pre = false →
  code ≠ Some 0 →
  result (runTests download process_env (Child (pre ++ CloseEvent code :: post)) options)
  = Rejected "Failed".
Proof.
  intros Hacq Hpre Hcode.
  destruct (runTests_supervision download process_env
              (pre ++ CloseEvent code :: post) options Hacq) as [_ ->].
  rewrite first_close by done.
  apply strict_ne_zero_spec in Hcode. by rewrite Hcode.
Qed.

Lemma runTests_exit_nonzero_rejects_witness :
  (acquires sample_download (Explicit sample_explicit) = true ∧
   existsb is_close [StderrData "1 failing"] = false ∧
   (None : ExitCode) ≠ Some 0) ∧
  result (runTests sample_download sample_env
            (Child ([StderrData "1 failing"] ++ CloseEvent None :: []))
            (Explicit sample_explicit))
  = Rejected "Failed".
Proof.
  split; [split; [reflexivity | split; [reflexivity | discriminate]] |].
  apply runTests_exit_nonzero_rejects; [reflexivity | reflexivity | discriminate].
Defined.



(** C9. On a non-zero exit code the ['close'] handler calls [reject] and
    then, falling through, [resolve]: the first call settles the promise,
    the second finds it settled and changes nothing, and the result is a
    rejection. *)
Theorem close_nonzero_rejects_then_resolves download process_env options pre code post :
  acquires download options = true →
  existsb is_close pre = false →
  existsb is_close post = false →
  code ≠ Some 0 →
  let run := runTests download process_env (Child (pre ++ CloseEvent code :: post)) options in
  settle_log (supervision run) = [(CallReject "Failed", true); (CallResolve code, false)] ∧
  promise (supervision run) = Rejected "Failed" ∧
  result run = Rejected "Failed".
Proof.
  intros Hacq Hpre Hpost Hcode run.
  destruct (runTests_supervision download process_env
              (pre ++ CloseEvent code :: post) options Hacq) as [Hs Hr].
  fold run in Hs, Hr. rewrite Hr, Hs, foldl_app. simpl.
  destruct (quiet_events pre initial Hpre) as [Hp Hl]. simpl in Hp, Hl.
  destruct (close_nonzero code _ Hcode Hp) as [Hq Hlog].
  destruct (quiet_events post (cmd_on_close code (foldl dispatch initial pre)) Hpost)
    as [-> ->].
  by rewrite Hq, Hlog, Hl.
Qed.

Lemma close_nonzero_rejects_then_resolves_witness :
  let run := runTests sample_download sample_env
               (Child ([StdoutData "starting"] ++ CloseEvent (Some 1) :: []))
               (Implicit sample_options) in
  settle_log (supervision run) = [(CallReject "Failed", true); (CallResolve (Some 1), false)] ∧
  promise (supervision run) = Rejected "Failed" ∧
  result run = Rejected "Failed".
Proof.
  apply close_nonzero_rejects_then_resolves; [reflexivity | reflexivity | reflexivity | discriminate].
Defined.

(** ** Launch arguments *)

(** C4. For an implicit request the argument list is: the workspace path
    when one is given (the source's test [if (options.testWorkspace)]: a
    string that is present and not empty), then the extension development
    path, the extension tests path and the locale ([options.locale || 'en'])
    options, then the additional launch arguments in their order; and this
    list is what [cp.spawn] receives. *)
Theorem launch_arguments_in_order download process_env spawned (o : TestOptions.t) :
  launchArguments o =
    (if truthy (TestOptions.testWorkspace o)
     then option_list (TestOptions.testWorkspace o) else [])
    ++ [ "--extensionDevelopmentPath=" +:+ TestOptions.extensionPath o;
         "--extensionTestsPath=" +:+ TestOptions.testRunnerPath o;
         "--locale=" +:+ or_else (TestOptions.locale o) "en" ]
    ++ default [] (TestOptions.additionalLaunchArgs o)
  ∧ Forall (λ call, argv call = launchArguments o)
      (spawn_calls (runTests download process_env spawned (Implicit o))).
Proof.
  split.
  - unfold launchArguments.
    destruct (TestOptions.testWorkspace o) as [[|c w]|];
      destruct (TestOptions.additionalLaunchArgs o) as [more|];
      simpl; by rewrite ?app_nil_r.
  - eapply Forall_impl; [apply runTests_spawn_all|]. by intros call [Hargv _].
Qed.

(** C5. For an explicit request [cp.spawn] is called once, with the
    caller's [launchArgs] as they are, and the list held by the options
    object is the same afterwards.  (An explicit request carries none of
    the fields that [launchArguments] reads.) *)
Theorem explicit_arguments_verbatim download process_env spawned
    (o : ExplicitTestOptions.t) :
  acquires download (Explicit o) = true →
  argv <$> spawn_calls (runTests download process_env spawned (Explicit o))
    = [ExplicitTestOptions.launchArgs o] ∧
  agree_but_executable (Explicit o)
    (options_after (runTests download process_env spawned (Explicit o))).
Proof.
  intros Hacq. split.
  - by rewrite runTests_spawn.
  - apply runTests_options_agree.
Qed.

Lemma explicit_arguments_verbatim_witness :
  acquires sample_download (Explicit sample_explicit) = true ∧
  argv <$> spawn_calls (runTests sample_download sample_env (Child []) (Explicit sample_explicit))
    = [["/ws"; "--extensionDevelopmentPath=/ext"]].
Proof.
  split; [reflexivity|].
  apply (explicit_arguments_verbatim sample_download sample_env (Child []) sample_explicit
           eq_refl).
Defined.

(** C10. An executable path that is the empty string counts as absent:
    the download collaborator is called, once, with [options.version], and
    the path that it returns is the command of [cp.spawn] and the new value
    of [options.vscodeExecutablePath]. *)
Theorem empty_executable_path_downloads download process_env spawned options :
  vscodeExecutablePath options = Some EmptyString →
  let run := runTests download process_env spawned options in
  download_calls run = [version options] ∧
  ∀ path, download (version options) = Returned path →
    command <$> spawn_calls run = [path] ∧
    vscodeExecutablePath (options_after run) = Some path.
Proof.
  intros Hempty run. subst run. unfold runTests. rewrite Hempty. simpl.
  destruct (download (version options)) as [p|err] eqn:Hdownload.
  - rewrite launch_spawn, !(proj1 (launch_options _ _ _ _)),
      !(proj2 (launch_options _ _ _ _)).
    split; [done|]. intros path [= <-]. by destruct options.
  - split; [done|]. intros path [=].
Qed.

Lemma empty_executable_path_downloads_witness :
  vscodeExecutablePath (Explicit sample_explicit) = Some EmptyString ∧
  download_calls (runTests sample_download sample_env (Child []) (Explicit sample_explicit))
    = [Some "insiders"] ∧
  command <$> spawn_calls (runTests sample_download sample_env (Child []) (Explicit sample_explicit))
    = ["/cache/vscode-insiders/code"].
Proof.
  split; [reflexivity|].
  destruct (empty_executable_path_downloads sample_download sample_env (Child [])
              (Explicit sample_explicit) eq_refl) as [Hcalls Hpath].
  split; [exact Hcalls|].
  exact (proj1 (Hpath "/cache/vscode-insiders/code" eq_refl)).
Defined.

(** ** Environment *)

(** C6, as stated, fails: a caller entry whose value is [undefined] is
    set by [Object.assign] like any other and replaces the ambient
    value. *)
Lemma undefined_entry_counterexample :
  let process_env : gmap string string := {[ "PATH" := "/usr/bin" ]} in
  let caller : Dict := {[ "PATH" := None ]} in
  process_env !! "PATH" = Some "/usr/bin" ∧
  caller !! "PATH" = Some None ∧
  fullEnv process_env (Some caller) !! "PATH" = Some None ∧
  fullEnv process_env (Some caller) !! "PATH" ≠ Some (Some "/usr/bin").
Proof. vm_compute. repeat split; congruence. Qed.

(** C6, amended.  In the merged environment every key of the caller's
    environment, [__proto__] apart, holds the caller's value, [undefined]
    included; every other key, [__proto__] apart, holds its ambient value,
    and keys of neither are absent.  This environment is the one given to
    [cp.spawn], which is called once when an executable is at hand. *)
Theorem merged_environment download process_env spawned options (key : string) :
  key ≠ "__proto__" →
  fullEnv process_env (testRunnerEnv options) !! key =
    match testRunnerEnv options ≫= (λ caller, caller !! key) with
    | Some value => Some value
    | None => Some <$> process_env !! key
    end
  ∧ Forall (λ call, env call = fullEnv process_env (testRunnerEnv options))
      (spawn_calls (runTests download process_env spawned options))
  ∧ length (spawn_calls (runTests download process_env spawned options)) =
      (if acquires download options then 1%nat else 0%nat).
Proof.
  intros Hkey. repeat split.
  - rewrite fullEnv_lookup. by case_decide.
  - eapply Forall_impl; [apply runTests_spawn_all|]. by intros call [_ Henv].
  - destruct (acquires download options) eqn:Hacq.
    + by rewrite (runTests_spawn _ _ _ _ Hacq).
    + resolve_executable download options; by try discriminate.
Qed.

Lemma merged_environment_witness :
  "HOME" ≠ "__proto__" ∧
  fullEnv sample_env (Some {[ "HOME" := None ]}) !! "HOME" = Some None.
Proof.
  split; [discriminate|].
  refine (proj1 (merged_environment sample_download sample_env (Child [])
                   (Explicit {| ExplicitTestOptions.vscodeExecutablePath := None;
                                ExplicitTestOptions.version := None;
                                ExplicitTestOptions.launchArgs := [];
                                ExplicitTestOptions.testRunnerEnv :=
                                  Some {[ "HOME" := None ]} |})
                   "HOME" _)).
  discriminate.
Defined.

(** ** The caller's options object *)

(** C7, as stated, fails: line 129 assigns to the caller's object. *)
Lemma options_object_counterexample :
  let run := runTests sample_download sample_env (Child []) (Implicit sample_options) in
  vscodeExecutablePath (Implicit sample_options) = None ∧
  vscodeExecutablePath (options_after run) = Some "/cache/vscode-1.32.0/code" ∧
  options_after run ≠ Implicit sample_options.
Proof. repeat split; discriminate. Qed.

(** C7, amended.  Every property of the options object other than
    [vscodeExecutablePath] is the same after the invocation;
    [vscodeExecutablePath] is the same when it was truthy or when the
    download fails, and is the downloaded path otherwise. *)
Theorem options_object_frame download process_env spawned options :
  agree_but_executable options
    (options_after (runTests download process_env spawned options)) ∧
  vscodeExecutablePath (options_after (runTests download process_env spawned options)) =
    if truthy (vscodeExecutablePath options) then vscodeExecutablePath options
    else match download (version options) with
         | Returned path => Some path
         | Thrown _ => vscodeExecutablePath options
         end.
Proof.
  split; [apply runTests_options_agree|].
  rewrite runTests_options_after.
  destruct (truthy (vscodeExecutablePath options)); [done|].
  destruct (download (version options)); [by destruct options | done].
Qed.

(** ** Output filter *)

(** C8, as stated, fails: a chunk that holds the marker among other text
    is not equal to the idle line, and is suppressed all the same. *)
Lemma stdout_filter_counterexample :
  let chunk := "[main 10:42:07] update#setState idle" +:+ LF in
  chunk ≠ idle_line ∧
  console (stdout_on_data chunk initial) = [].
Proof. split; [discriminate | reflexivity]. Qed.

(** C8, amended.  The chunk equal to the idle line is suppressed; so is
    every chunk in which ["update#setState idle"] occurs; every other chunk
    is written to the console as it is. *)
Theorem stdout_filter (s : string) (st : Supervision) :
  stdout_on_data idle_line st = st ∧
  ((∃ a b, s = a +:+ idle_marker +:+ b) → stdout_on_data s st = st) ∧
  (¬ (∃ a b, s = a +:+ idle_marker +:+ b) → stdout_on_data s st = console_log s st).
Proof.
  split; [reflexivity|]. unfold stdout_on_data.
  change "update#setState idle" with idle_marker.
  split; intros H.
  - apply includes_spec in H. by rewrite H.
  - destruct (includes idle_marker s) eqn:Hinc; [|done].
    exfalso. apply H. by apply includes_spec.
Qed.

Lemma stdout_filter_witness :
  stdout_on_data ("x update#setState idle y") initial = initial.
Proof.
  apply (proj1 (proj2 (stdout_filter "x update#setState idle y" initial))).
  by exists "x ", " y".
Defined.

(** * Further properties of the supervision and of [runTests] *)

(** ** Shared lemmas *)

(** What a handler writes does not depend on the state it finds. *)
Lemma dispatch_console (st : Supervision) (ev : ChildEvent) :
  console (dispatch st ev) = console st ++ console (dispatch initial ev).
Proof.
  destruct ev as [s|s|d|code]; simpl.
  - unfold stdout_on_data. destruct (negb _); simpl; by rewrite ?app_nil_r.
  - unfold stderr_on_data. destruct (negb _); simpl; by rewrite ?app_nil_r.
  - done.
  - unfold cmd_on_close. destruct (strict_ne_zero code); simpl; by rewrite <- app_assoc.
Qed.

Lemma events_console (evs : list ChildEvent) (st : Supervision) :
  console (foldl dispatch st evs) = console st ++ console (foldl dispatch initial evs).
Proof.
  revert st. induction evs as [|ev evs IH]; intros st; simpl.
  - by rewrite app_nil_r.
  - rewrite (IH (dispatch st ev)), (IH (dispatch initial ev)), dispatch_console.
    by rewrite app_assoc.
Qed.

(** The promise after an event is a function of the promise before it. *)
Lemma dispatch_promise (st1 st2 : Supervision) (ev : ChildEvent) :
  promise st1 = promise st2 → promise (dispatch st1 ev) = promise (dispatch st2 ev).
Proof.
  intros Heq. destruct ev as [s|s|d|code]; simpl.
  - unfold stdout_on_data. by destruct (negb _).
  - unfold stderr_on_data. by destruct (negb _).
  - done.
  - unfold cmd_on_close. destruct (strict_ne_zero code); simpl; by rewrite Heq.
Qed.

Lemma events_promise (evs : list ChildEvent) (st1 st2 : Supervision) :
  promise st1 = promise st2 →
  promise (foldl dispatch st1 evs) = promise (foldl dispatch st2 evs).
Proof.
  revert st1 st2. induction evs as [|ev evs IH]; intros st1 st2 Heq; simpl; [done|].
  by apply IH, dispatch_promise.
Qed.

Lemma events_promise_closes (evs : list ChildEvent) (st : Supervision) :
  promise (foldl dispatch st evs) = promise (foldl dispatch st (List.filter is_close evs)).
Proof.
  revert st. induction evs as [|ev evs IH]; intros st; simpl; [done|].
  destruct (is_close ev) eqn:Hev; simpl.
  - apply IH.
  - rewrite <- IH. apply events_promise. by apply dispatch_quiet.
Qed.

(** A trace with a ['close'] event splits at the first one. *)
Lemma first_close_split (evs : list ChildEvent) :
  existsb is_close evs = true →
  ∃ pre code post, evs = pre ++ CloseEvent code :: post ∧ existsb is_close pre = false.
Proof.
  induction evs as [|ev evs IH]; simpl; [done|].
  destruct (is_close ev) eqn:Hev; simpl.
  - intros _. destruct ev as [| | |code]; try discriminate. by exists [], code, evs.
  - intros (pre & code & post & -> & Hpre)%IH.
    exists (ev :: pre), code, post. simpl. by rewrite Hev, Hpre.
Qed.

(** The three states that the promise can be in. *)
Lemma promise_cases (evs : list ChildEvent) :
  promise (foldl dispatch initial evs) =
  if existsb is_close evs
  then match promise (foldl dispatch initial evs) with
       | Fulfilled _ => Fulfilled (Some 0)
       | _ => Rejected "Failed"
       end
  else Pending.
Proof.
  destruct (existsb is_close evs) eqn:Hex.
  - apply first_close_split in Hex as (pre & code & post & -> & Hpre).
    rewrite (first_close pre post code Hpre).
    destruct (strict_ne_zero code) eqn:Hc; [done|].
    destruct code as [n|]; [|done]. simpl in Hc.
    apply negb_false_iff, Z.eqb_eq in Hc. by subst.
  - by apply pending_iff_no_close.
Qed.

(** The calls of [resolve] and [reject] that took effect. *)
Lemma dispatch_effective (st : Supervision) (ev : ChildEvent) :
  length (List.filter snd (settle_log (dispatch st ev))) =
  (length (List.filter snd (settle_log st)) +
   if is_pending (promise st) && is_close ev then 1 else 0)%nat.
Proof.
  destruct ev as [s|s|d|code]; simpl; rewrite ?andb_false_r, ?andb_true_r.
  - unfold stdout_on_data. destruct (negb _); simpl; lia.
  - unfold stderr_on_data. destruct (negb _); simpl; lia.
  - lia.
  - unfold cmd_on_close. destruct (strict_ne_zero code); simpl;
      destruct (promise st); simpl;
      rewrite ?List.filter_app, ?length_app; simpl; lia.
Qed.

Lemma dispatch_close_settles (st : Supervision) (ev : ChildEvent) :
  is_pending (promise (dispatch st ev)) = is_pending (promise st) && negb (is_close ev).
Proof.
  destruct ev as [s|s|d|code]; simpl; rewrite ?andb_true_r, ?andb_false_r.
  - unfold stdout_on_data. by destruct (negb _).
  - unfold stderr_on_data. by destruct (negb _).
  - done.
  - unfold cmd_on_close. destruct (strict_ne_zero code); simpl;
      by destruct (promise st).
Qed.

Lemma events_effective (evs : list ChildEvent) (st : Supervision) :
  length (List.filter snd (settle_log (foldl dispatch st evs))) =
  (length (List.filter snd (settle_log st)) +
   if is_pending (promise st) && existsb is_close evs then 1 else 0)%nat.
Proof.
  revert st. induction evs as [|ev evs IH]; intros st; simpl.
  - rewrite andb_false_r. lia.
  - rewrite IH, dispatch_effective, dispatch_close_settles.
    destruct (is_pending (promise st)), (is_close ev); simpl; lia.
Qed.

(** [runTests] when no executable is at hand. *)
Lemma runTests_unacquired download process_env spawned options :
  acquires download options = false →
  ∃ err, download (version options) = Thrown err ∧
    runTests download process_env spawned options =
    {| options_after := options;
       download_calls := [version options];
       spawn_calls := [];
       supervision := initial;
       result := Rejected err |}.
Proof.
  intros Hacq. resolve_executable download options; try discriminate. by exists err.
Qed.

Lemma runTests_calls download process_env spawned options :
  download_calls (runTests download process_env spawned options) =
  if truthy (vscodeExecutablePath options) then [] else [version options].
Proof.
  unfold runTests. destruct (truthy (vscodeExecutablePath options)); simpl;
    [| destruct (download (version options))];
    by rewrite ?(proj2 (launch_options _ _ _ _)).
Qed.

(** ** The result *)

(** X1. Output does not decide the result: a run and the same run with
    every event but the ['close'] events removed end in the same state of
    the promise. *)
Theorem result_ignores_output download process_env events options :
  result (runTests download process_env (Child events) options) =
  result (runTests download process_env (Child (List.filter is_close events)) options).
Proof.
  destruct (acquires download options) eqn:Hacq.
  - rewrite !(proj2 (runTests_supervision _ _ _ _ Hacq)). apply events_promise_closes.
  - destruct (runTests_unacquired download process_env (Child events) options Hacq)
      as (err & Herr & ->).
    destruct (runTests_unacquired download process_env
                (Child (List.filter is_close events)) options Hacq) as (err' & Herr' & ->).
    simpl. congruence.
Qed.

(** X2. The promise is settled at most once: among the calls of [resolve]
    and [reject] made during a run, one took effect when a child was
    spawned and has emitted ['close'], whatever the number of ['close']
    events, and none otherwise. *)
Theorem settles_exactly_once download process_env events options :
  length (List.filter snd
            (settle_log (supervision (runTests download process_env (Child events) options)))) =
  if acquires download options && existsb is_close events then 1%nat else 0%nat.
Proof.
  destruct (acquires download options) eqn:Hacq; simpl.
  - rewrite (proj1 (runTests_supervision _ _ _ _ Hacq)), events_effective. simpl.
    by destruct (existsb is_close events).
  - by destruct (runTests_unacquired download process_env (Child events) options Hacq)
      as (err & _ & ->).
Qed.

(** X3. A settled result is final: events that arrive later, further
    ['close'] events included, do not change it. *)
Theorem settled_result_is_final download process_env events more options :
  result (runTests download process_env (Child events) options) ≠ Pending →
  result (runTests download process_env (Child (events ++ more)) options) =
  result (runTests download process_env (Child events) options).
Proof.
  destruct (acquires download options) eqn:Hacq.
  - rewrite !(proj2 (runTests_supervision _ _ _ _ Hacq)), foldl_app.
    intros Hs. apply settled_events.
    by destruct (promise (foldl dispatch initial events)).
  - intros _.
    destruct (runTests_unacquired download process_env (Child events) options Hacq)
      as (err & Herr & ->).
    destruct (runTests_unacquired download process_env (Child (events ++ more)) options Hacq)
      as (err' & Herr' & ->).
    simpl. congruence.
Qed.

Lemma settled_result_is_final_witness :
  result (runTests sample_download sample_env
            (Child ([CloseEvent (Some 2)] ++ [CloseEvent (Some 0); StdoutData "late"]))
            (Implicit sample_options)) =
  result (runTests sample_download sample_env (Child [CloseEvent (Some 2)])
            (Implicit sample_options)).
Proof. apply settled_result_is_final. discriminate. Defined.

(** X4. The only value that the result is ever fulfilled with is 0: a
    non-zero exit code or [null] never reaches the caller as a value. *)
Theorem fulfilled_only_with_zero download process_env spawned options (value : ExitCode) :
  result (runTests download process_env spawned options) = Fulfilled value →
  value = Some 0.
Proof.
  destruct (acquires download options) eqn:Hacq.
  - rewrite (proj2 (runTests_supervise _ _ _ _ Hacq)).
    destruct spawned as [err|events]; simpl; [done|].
    rewrite promise_cases. destruct (existsb is_close events); [|done].
    destruct (promise (foldl dispatch initial events)); congruence.
  - by destruct (runTests_unacquired download process_env spawned options Hacq)
      as (err & _ & ->).
Qed.

Lemma fulfilled_only_with_zero_witness :
  result (runTests sample_download sample_env (Child [StdoutData "ok"; CloseEvent (Some 0)])
            (Explicit sample_explicit)) = Fulfilled (Some 0) ∧
  (Some 0 : ExitCode) = Some 0.
Proof.
  split; [reflexivity|].
  apply (fulfilled_only_with_zero sample_download sample_env
           (Child [StdoutData "ok"; CloseEvent (Some 0)]) (Explicit sample_explicit)).
  reflexivity.
Defined.

(** X5. Once [cp.spawn] has returned a child, a rejection has the reason
    ['Failed'] and no other: the exit code is not part of it. *)
Theorem rejection_reason_is_generic download process_env events options (reason : string) :
  acquires download options = true →
  result (runTests download process_env (Child events) options) = Rejected reason →
  reason = "Failed".
Proof.
  intros Hacq. rewrite (proj2 (runTests_supervision _ _ _ _ Hacq)), promise_cases.
  destruct (existsb is_close events); [|done].
  destruct (promise (foldl dispatch initial events)); congruence.
Qed.

Lemma rejection_reason_is_generic_witness :
  acquires sample_download (Implicit sample_options) = true ∧
  result (runTests sample_download sample_env (Child [CloseEvent (Some 137)])
            (Implicit sample_options)) = Rejected "Failed" ∧
  "Failed" = "Failed".
Proof.
  split; [reflexivity|]. split; [reflexivity|].
  apply (rejection_reason_is_generic sample_download sample_env
           [CloseEvent (Some 137)] (Implicit sample_options)); reflexivity.
Defined.

(** ** Resolving the executable *)

(** X6. When the executable path is absent or empty and the download
    fails, [runTests] rejects with the error of the download, spawns
    nothing, writes nothing, and leaves the options object as it was,
    whatever the child would have done. *)
Theorem download_failure_propagates download process_env spawned options (err : string) :
  truthy (vscodeExecutablePath options) = false →
  download (version options) = Thrown err →
  let run := runTests download process_env spawned options in
  result run = Rejected err ∧
  spawn_calls run = [] ∧
  console (supervision run) = [] ∧
  settle_log (supervision run) = [] ∧
  download_calls run = [version options] ∧
  options_after run = options.
Proof.
  intros Hfalsy Hthrown run. subst run.
  unfold runTests. by rewrite Hfalsy, Hthrown.
Qed.

Lemma download_failure_propagates_witness :
  let run := runTests (λ _, Thrown "getaddrinfo ENOTFOUND") sample_env
               (Child [CloseEvent (Some 0)]) (Implicit sample_options) in
  result run = Rejected "getaddrinfo ENOTFOUND" ∧ spawn_calls run = [].
Proof.
  destruct (download_failure_propagates (λ _, Thrown "getaddrinfo ENOTFOUND") sample_env
              (Child [CloseEvent (Some 0)]) (Implicit sample_options) "getaddrinfo ENOTFOUND"
              eq_refl eq_refl) as (Hresult & Hspawn & _).
  exact (conj Hresult Hspawn).
Defined.

(** X7. A non-empty executable path given by the caller is used as it is:
    the download collaborator is not called, the path is the command of
    [cp.spawn], and the options object is not written. *)
Theorem given_executable_is_used download process_env spawned options (path : string) :
  vscodeExecutablePath options = Some path →
  path ≠ EmptyString →
  let run := runTests download process_env spawned options in
  download_calls run = [] ∧
  command <$> spawn_calls run = [path] ∧
  options_after run = options.
Proof.
  intros Hpath Hne run. subst run.
  assert (truthy (vscodeExecutablePath options) = true) as Htruthy.
  { rewrite Hpath. by destruct path. }
  assert (acquires download options = true) as Hacq.
  { unfold acquires. by rewrite Htruthy. }
  rewrite runTests_calls, runTests_options_after, (runTests_spawn _ _ _ _ Hacq), Htruthy.
  simpl. by rewrite Hpath.
Qed.

Lemma given_executable_is_used_witness :
  let options :=
    Explicit {| ExplicitTestOptions.vscodeExecutablePath := Some "/opt/code";
                ExplicitTestOptions.version := Some "insiders";
                ExplicitTestOptions.launchArgs := ["--help"];
                ExplicitTestOptions.testRunnerEnv := None |} in
  download_calls (runTests sample_download sample_env (Child []) options) = [] ∧
  command <$> spawn_calls (runTests sample_download sample_env (Child []) options) = ["/opt/code"].
Proof.
  intros options.
  destruct (given_executable_is_used sample_download sample_env (Child []) options "/opt/code"
              eq_refl) as (Hcalls & Hcommand & _); [discriminate|].
  exact (conj Hcalls Hcommand).
Defined.

(** X8. One invocation calls the download collaborator at most once (not
    at all when the caller's path is non-empty) and spawns at most one
    child: exactly one when an executable is at hand, none otherwise. *)
Theorem at_most_one_download_and_spawn download process_env spawned options :
  length (download_calls (runTests download process_env spawned options)) =
    (if truthy (vscodeExecutablePath options) then 0%nat else 1%nat) ∧
  length (spawn_calls (runTests download process_env spawned options)) =
    (if acquires download options then 1%nat else 0%nat).
Proof.
  split.
  - rewrite runTests_calls. by destruct (truthy _).
  - destruct (acquires download options) eqn:Hacq.
    + by rewrite (runTests_spawn _ _ _ _ Hacq).
    + by destruct (runTests_unacquired download process_env spawned options Hacq)
        as (err & _ & ->).
Qed.

(** ** The console *)

(** X9. A standard-error chunk in which ["stty: stdin"] occurs is
    dropped; every other chunk is written as one line, prefixed with
    ["Spawn Error: "].  Neither case touches the promise. *)
Theorem stderr_filter (s : string) (st : Supervision) :
  ((∃ a b, s = a +:+ "stty: stdin" +:+ b) → stderr_on_data s st = st) ∧
  (¬ (∃ a b, s = a +:+ "stty: stdin" +:+ b) →
   stderr_on_data s st = console_log ("Spawn Error: " +:+ s) st) ∧
  promise (stderr_on_data s st) = promise st.
Proof.
  unfold stderr_on_data. repeat split.
  - intros H. apply includes_spec in H. by rewrite H.
  - intros H. destruct (includes "stty: stdin" s) eqn:Hinc; [|done].
    exfalso. apply H. by apply includes_spec.
  - by destruct (negb _).
Qed.

Lemma stderr_filter_witness :
  stderr_on_data "bash: stty: stdin isn't a terminal" initial = initial.
Proof.
  apply (proj1 (stderr_filter "bash: stty: stdin isn't a terminal" initial)).
  by exists "bash: ", " isn't a terminal".
Defined.

(** X10. What a run writes is the concatenation of what its parts write:
    the lines of an event do not depend on the events before it, nor on
    whether the promise is settled. *)
Theorem console_is_compositional download process_env before after options :
  console (supervision (runTests download process_env (Child (before ++ after)) options)) =
  console (supervision (runTests download process_env (Child before) options)) ++
  console (supervision (runTests download process_env (Child after) options)).
Proof.
  destruct (acquires download options) eqn:Hacq.
  - rewrite !(proj1 (runTests_supervision _ _ _ _ Hacq)), foldl_app.
    apply events_console.
  - destruct (runTests_unacquired download process_env (Child (before ++ after)) options Hacq)
      as (e1 & _ & ->).
    destruct (runTests_unacquired download process_env (Child before) options Hacq)
      as (e2 & _ & ->).
    by destruct (runTests_unacquired download process_env (Child after) options Hacq)
      as (e3 & _ & ->).
Qed.

(** X11. Every ['close'] event writes the exit-code line and then the
    line ["Done\n"], for a zero and for a non-zero or [null] code alike,
    and also when the promise is settled already. *)
Theorem close_writes_code_and_done download process_env before code after options :
  acquires download options = true →
  console (supervision
             (runTests download process_env (Child (before ++ CloseEvent code :: after)) options)) =
  console (supervision (runTests download process_env (Child before) options)) ++
  [ "Exit code:   " +:+ code_to_string code; "Done" +:+ LF ] ++
  console (supervision (runTests download process_env (Child after) options)).
Proof.
  intros Hacq. rewrite !(proj1 (runTests_supervision _ _ _ _ Hacq)), foldl_app.
  rewrite events_console. f_equal. simpl.
  rewrite events_console. f_equal.
  unfold cmd_on_close. by destruct (strict_ne_zero code).
Qed.

Lemma close_writes_code_and_done_witness :
  acquires sample_download (Implicit sample_options) = true ∧
  console (supervision
             (runTests sample_download sample_env
                (Child ([StdoutData "1 failing"] ++ CloseEvent None :: []))
                (Implicit sample_options))) =
  [ "1 failing"; "Exit code:   null"; "Done" +:+ LF ].
Proof.
  split; [reflexivity|].
  apply (close_writes_code_and_done sample_download sample_env
           [StdoutData "1 failing"] None [] (Implicit sample_options) eq_refl).
Defined.

(** X12. Of a sequence of standard-output chunks, the console receives
    the chunks in which ["update#setState idle"] does not occur, each as
    it is and in the order of arrival, and nothing else. *)
Theorem stdout_chunks_in_order download process_env (chunks : list string) options :
  acquires download options = true →
  console (supervision
             (runTests download process_env (Child (StdoutData <$> chunks)) options)) =
  List.filter (λ s, negb (includes "update#setState idle" s)) chunks.
Proof.
  intros Hacq. rewrite (proj1 (runTests_supervision _ _ _ _ Hacq)).
  induction chunks as [|s chunks IH]; [done|].
  rewrite fmap_cons. simpl foldl. rewrite events_console, IH. simpl.
  unfold stdout_on_data. by destruct (negb _).
Qed.

Lemma stdout_chunks_in_order_witness :
  acquires sample_download (Implicit sample_options) = true ∧
  console (supervision
             (runTests sample_download sample_env
                (Child (StdoutData <$> ["a"; "update#setState idle" +:+ LF; "b"]))
                (Implicit sample_options))) = ["a"; "b"].
Proof.
  split; [reflexivity|].
  apply (stdout_chunks_in_order sample_download sample_env
           ["a"; "update#setState idle" +:+ LF; "b"] (Implicit sample_options) eq_refl).
Defined.

(** ** The environment *)

(** X13. The merged environment is the caller's environment laid over
    the ambient one, less the key [__proto__], which is never an own key
    of it: its keys are the keys of either but [__proto__]; without a
    caller environment, or with an empty one, it is the ambient
    environment less [__proto__]. *)
Theorem merged_environment_is_union (process_env : gmap string string) (caller : Dict) :
  fullEnv process_env (Some caller) = delete "__proto__" (caller ∪ (Some <$> process_env)) ∧
  dom (fullEnv process_env (Some caller)) = (dom caller ∪ dom process_env) ∖ {[ "__proto__" ]} ∧
  fullEnv process_env None = delete "__proto__" (Some <$> process_env) ∧
  fullEnv process_env (Some ∅) = delete "__proto__" (Some <$> process_env) ∧
  fullEnv process_env (Some caller) !! "__proto__" = None.
Proof.
  assert (fullEnv process_env (Some caller)
          = delete "__proto__" (caller ∪ (Some <$> process_env))) as Hu.
  { apply map_eq. intros key.
    rewrite fullEnv_lookup, lookup_delete, lookup_union, lookup_fmap. simpl.
    do 2 case_decide; try congruence.
    destruct (caller !! key), (process_env !! key); done. }
  repeat split.
  - exact Hu.
  - by rewrite Hu, dom_delete_L, dom_union_L, dom_fmap_L.
  - apply map_eq. intros key. rewrite fullEnv_lookup, lookup_delete, lookup_fmap. simpl.
    do 2 case_decide; congruence.
  - apply map_eq. intros key. rewrite fullEnv_lookup, lookup_delete, lookup_fmap. simpl.
    rewrite lookup_empty. do 2 case_decide; congruence.
  - by rewrite fullEnv_lookup.
Qed.

(** X14. A key of the merged environment holds [undefined] only when the
    caller's environment holds [undefined] for it: ambient values are
    strings and stay so. *)
Theorem undefined_only_from_caller (process_env : gmap string string)
    (tre : option Dict) (key : string) :
  fullEnv process_env tre !! key = Some None →
  ∃ caller, tre = Some caller ∧ caller !! key = Some None.
Proof.
  rewrite fullEnv_lookup. case_decide; [done|]. destruct tre as [caller|]; simpl.
  - destruct (caller !! key) as [value|] eqn:Hkey.
    + intros [= ->]. by exists caller.
    + by destruct (process_env !! key).
  - by destruct (process_env !! key).
Qed.

Lemma undefined_only_from_caller_witness :
  ∃ caller : Dict,
    Some ({[ "HOME" := None ]} : Dict) = Some caller ∧ caller !! "HOME" = Some None.
Proof.
  apply (undefined_only_from_caller sample_env (Some {[ "HOME" := None ]}) "HOME").
  by vm_compute.
Defined.

(** ** The locale *)

(** X15. Without a locale, or with an empty one, the child is started
    with [--locale=en]; with a non-empty locale, with that locale. *)
Theorem locale_defaults_to_en download process_env spawned (o : TestOptions.t) :
  acquires download (Implicit o) = true →
  (truthy (TestOptions.locale o) = false →
   Forall (λ call, "--locale=en" ∈ argv call)
     (spawn_calls (runTests download process_env spawned (Implicit o)))) ∧
  (∀ l, TestOptions.locale o = Some l → l ≠ EmptyString →
   Forall (λ call, "--locale=" +:+ l ∈ argv call)
     (spawn_calls (runTests download process_env spawned (Implicit o)))) ∧
  length (spawn_calls (runTests download process_env spawned (Implicit o))) = 1%nat.
Proof.
  intros Hacq. rewrite (runTests_spawn _ _ _ _ Hacq).
  assert (∀ x, x = "--locale=" +:+ or_else (TestOptions.locale o) "en" →
               x ∈ launchArguments o) as Hin.
  { intros x ->. unfold launchArguments.
    destruct (truthy (TestOptions.testWorkspace o)), (TestOptions.testWorkspace o),
      (TestOptions.additionalLaunchArgs o); unfold unshift; set_solver. }
  repeat split.
  - intros Hfalsy. repeat constructor. simpl. apply Hin.
    by destruct (TestOptions.locale o) as [[|c l]|].
  - intros l Hl Hne. repeat constructor. simpl. apply Hin.
    rewrite Hl. by destruct l.
Qed.

Lemma locale_defaults_to_en_witness :
  acquires sample_download (Implicit sample_options) = true ∧
  Forall (λ call, "--locale=en" ∈ argv call)
    (spawn_calls (runTests sample_download sample_env (Child []) (Implicit sample_options))).
Proof.
  split; [reflexivity|].
  exact (proj1 (locale_defaults_to_en sample_download sample_env (Child []) sample_options
                  eq_refl)
           eq_refl).
Defined.

(** ** A call of [cp.spawn] that throws *)

(** X16. When [cp.spawn] throws, the result is rejected with what it
    threw, though no ['close'] event will come: nothing is written, and
    the source has called neither [resolve] nor [reject].  [cp.spawn] was
    called once, and the options object is as after the download. *)
Theorem spawn_throw_rejects download process_env options (err : string) :
  acquires download options = true →
  let run := runTests download process_env (SpawnThrew err) options in
  result run = Rejected err ∧
  console (supervision run) = [] ∧
  settle_log (supervision run) = [] ∧
  length (spawn_calls run) = 1%nat ∧
  agree_but_executable options (options_after run).
Proof.
  intros Hacq run. subst run.
  destruct (runTests_supervise download process_env (SpawnThrew err) options Hacq)
    as [-> ->].
  rewrite (runTests_spawn _ _ _ _ Hacq).
  repeat split. apply runTests_options_agree.
Qed.

Lemma spawn_throw_rejects_witness :
  acquires sample_download (Explicit sample_explicit) = true ∧
  result (runTests sample_download sample_env (SpawnThrew "TypeError")
            (Explicit sample_explicit)) = Rejected "TypeError".
Proof.
  split; [reflexivity|].
  exact (proj1 (spawn_throw_rejects sample_download sample_env
                  (Explicit sample_explicit) "TypeError" eq_refl)).
Defined.
